(** * Harwin LTek footprint generator: the pad layout of [printPins]

    A shallow embedding of [HarwinLtekFootprint.printPins]
    (Connector_Harwin.pretty/Harwin_LTek_Footprint.py) and the properties of
    the pad list it builds.

    Conventions of the embedding.
    - The file is Python 3 (the constructor carries a [-> None] annotation), so
      [self.pins/2] is true division and yields a float.
    - A Python [int] is a [Z].  A Python [float] is modelled by the rational
      number it denotes, kept in lowest terms ([Qred]) so that equal values
      are equal terms; rounding, infinities and NaN are outside the model.
      The model is therefore exact where binary64 is: [self.pins/2] and the
      sums built on it for pin counts up to [max_exact_pins] in absolute
      value, and a product with [float(0)] or with a pitch of [0.0].  A
      statement that depends on the value of a quotient carries that bound;
      no statement depends on the value of any other product.
    - Every element of the returned list is one call
      [self.padString.format(padID=.., thSMD=.., ...)]; the embedding keeps
      the keyword arguments of that call as a record instead of the rendered
      text.  A number passed through [str] keeps its Python type, because
      [str(3)] and [str(3.0)] are different texts. *)

From Stdlib Require Import ZArith QArith Qround List String Bool Lia Lqa.
From Stdlib Require Qcanon.
Import ListNotations.
Open Scope Z_scope.

(** ** Python numbers *)

Module Py.

Inductive num : Type :=
| Int (z : Z)
| Float (q : Q).

(** The number denoted, the same for [3] and [3.0]. *)
Definition value (n : num) : Q :=
  match n with
  | Int z => inject_Z z
  | Float q => q
  end.

(** A float literal of the source text. *)
Definition lit (q : Q) : Q := Qred q.

(** [float(i)] *)
Definition float (i : Z) : Q := inject_Z i.

(** [a * b] on floats.  The source computes a rounded binary64 product
    (lines 143 and 172); this is the product without the rounding, equal to
    it when one factor is zero. *)
Definition fmul (a b : Q) : Q := Qred (a * b).

(** [a + b] on floats *)
Definition fadd (a b : Q) : Q := Qred (a + b).

(** [a / b] on floats *)
Definition fdiv (a b : Q) : Q := Qred (a / b).

(** [a / b] on two ints: true division, the result is a float.  Python
    rounds the quotient to binary64 and raises OverflowError when it is out
    of the float range; this is the quotient itself, equal to Python's
    result for [b = 2] and [a] up to 2^53 in absolute value. *)
Definition truediv (a b : Z) : num := Float (fdiv (inject_Z a) (inject_Z b)).

(** [a + b]: an int when both are ints, a float otherwise. *)
Definition add (a b : num) : num :=
  match a, b with
  | Int x, Int y => Int (x + y)
  | _, _ => Float (fadd (value a) (value b))
  end.

(** [a < b]: Python compares an int with a float by value. *)
Definition ltb (a b : num) : bool :=
  match Qcompare (value a) (value b) with
  | Lt => true
  | _ => false
  end.

End Py.

(** ** The object and its class attributes *)

Record HarwinLtekFootprint : Type := mkFootprint {
  pins : Z;
  rows : Z;
  pitch : Q;
  vert : bool;
  strain : bool;
  smd : bool
}.

Definition thPinDim : list Q := [Py.lit 1.35; Py.lit 1.35; Py.lit 0.8].
Definition smdPadDim : list Q := [Py.lit 1.00; Py.lit 3.20].
Definition strainPinDim : list Q := [Py.lit 1.5; Py.lit 1.5; Py.lit 0.95].

(** [l[k]] for an index inside the list (all uses index a class attribute at
    a constant position that exists). *)
Definition item (l : list Q) (k : nat) : Q := nth k l 0%Q.

(** ** Pad lines *)

(** [padID]: [str] of a number, or the text of two double quotes. *)
Inductive pad_id : Type :=
| Numbered (n : Py.num)
| Anonymous.

Inductive mount : Type := mount_smd | mount_thru_hole.
Inductive shape : Type := rect | circle.

(** ["F.Cu F.Paste F.Mask"] and ["*.Cu *.Mask"] *)
Inductive layer_set : Type := F_Cu_F_Paste_F_Mask | All_Cu_All_Mask.

(** The fields of [padString]; [drill] is [Some d] when the text
    ["(drill d) "] is passed and [None] for an empty drill text. *)
Record pad : Type := padString {
  padID : pad_id;
  thSMD : mount;
  padShape : shape;
  xCoord : Q;
  yCoord : Q;
  xSize : Q;
  ySize : Q;
  drill : option Q;
  layers : layer_set
}.

(** ** Outcomes *)

Inductive exn : Type :=
| Exception (format_arg : Z)
  (** ['SMD vertical Harwin LTek connectors should only have 2 rows and not
      have {} row(s)'.format(self.pins)] *)
| NameError (name : string).

Inductive outcome : Type :=
| Returns (myPins : list pad)
| Raises (e : exn)
| OutOfFuel.

(** ** printPins *)

(** The [while i < myPinsNum] loop.  The two loops of the source (lines
    142-147 and 171-176) have the same text and differ only in the values of
    the locals [myTH], [myPadShape] and [myLayers] on entry.  [None] means
    that the fuel ran out before the condition became false. *)
Fixpoint while_pins (fuel : nat) (self : HarwinLtekFootprint)
    (myTH : mount) (myPadShape : shape) (myLayers : layer_set)
    (myPinsNum : Py.num) (i : Z) (myPins : list pad) : option (list pad) :=
  if Py.ltb (Py.Int i) myPinsNum then
    match fuel with
    | O => None
    | S fuel' =>
        let myXCoord := Py.fmul (Py.float i) (pitch self) in
        let myPins :=
          myPins ++ [padString (Numbered (Py.Int (i + 1))) myTH myPadShape
                       myXCoord (Py.lit 0.00) (item thPinDim 0) (item thPinDim 1)
                       (Some (item thPinDim 2)) myLayers] in
        let myPins :=
          if rows self =? 2 then
            myPins ++ [padString
                         (Numbered (Py.add (Py.add myPinsNum (Py.Int i)) (Py.Int 1)))
                         myTH myPadShape
                         (Py.lit 0.00) (pitch self) (item thPinDim 0) (item thPinDim 1)
                         (Some (item thPinDim 2)) myLayers]
          else myPins in
        while_pins fuel' self myTH myPadShape myLayers myPinsNum (i + 1) myPins
    end
  else Some myPins.

(** The name [mXCoord] read by the first statement of both strain-relief
    blocks (lines 151 and 180).  No statement of the function or of the module
    binds it (the loops assign [myXCoord]), so the lookup finds nothing. *)
Definition mXCoord : option Q := None.

(** The body of [if self.strain:].  The shape of the four pads is the local
    [myPadShape] on the SMD path and the literal ["circle"] on the
    through-hole path; both pass [myLayers]. *)
Definition strain_block (padShape : shape) (myLayers : layer_set)
    (myPins : list pad) : outcome :=
  match mXCoord with
  | None => Raises (NameError "mXCoord")
  | Some mXCoord =>
      let myXCoordStrainPlus := Py.fadd mXCoord (Py.lit 2.25) in
      let myXCoordStrainMinus := Py.lit (-2.25) in
      let myYCoordStrainPlus := Py.fdiv (Py.lit 4.75) (Py.lit 2.0) in
      let myYCoordStrainMinus := Py.fmul (Py.lit (-1.0)) (Py.fdiv (Py.lit 4.75) (Py.lit 2.0)) in
      let strainPad x y :=
        padString Anonymous mount_thru_hole padShape x y
          (item strainPinDim 0) (item strainPinDim 1)
          (Some (item strainPinDim 2)) myLayers in
      Returns (myPins ++ [strainPad myXCoordStrainMinus myYCoordStrainPlus]
                      ++ [strainPad myXCoordStrainMinus myYCoordStrainMinus]
                      ++ [strainPad myXCoordStrainPlus myYCoordStrainPlus]
                      ++ [strainPad myXCoordStrainPlus myYCoordStrainMinus])
  end.

Definition printPins_fuel (fuel : nat) (self : HarwinLtekFootprint) : outcome :=
  let i := 0 in
  let myPins := [] in
  let myPadShape := rect in
  if smd self then
    let myTH := mount_smd in
    let myLayers := F_Cu_F_Paste_F_Mask in
    let myPinsNum := Py.Int (pins self) in
    if rows self =? 2 then
      let myPinsNum := Py.truediv (pins self) 2 in
      let myPins :=
        myPins ++ [padString (Numbered (Py.Int (i + 1))) myTH myPadShape
                     (Py.lit 0.00) (Py.lit 0.00) (item thPinDim 0) (item thPinDim 1)
                     (Some (item thPinDim 2)) myLayers] in
      let myPins :=
        myPins ++ [padString
                     (Numbered (Py.add (Py.add myPinsNum (Py.Int i)) (Py.Int 1)))
                     myTH myPadShape
                     (Py.lit 0.00) (pitch self) (item thPinDim 0) (item thPinDim 1)
                     (Some (item thPinDim 2)) myLayers] in
      match while_pins fuel self myTH myPadShape myLayers myPinsNum i myPins with
      | None => OutOfFuel
      | Some myPins =>
          if strain self then strain_block myPadShape myLayers myPins
          else Returns myPins
      end
    else Raises (Exception (pins self))
  else
    let myTH := mount_thru_hole in
    let myLayers := All_Cu_All_Mask in
    let myPinsNum := Py.Int (pins self) in
    let myPins :=
      myPins ++ [padString (Numbered (Py.Int (i + 1))) myTH myPadShape
                   (Py.lit 0.00) (Py.lit 0.00) (item thPinDim 0) (item thPinDim 1)
                   (Some (item thPinDim 2)) myLayers] in
    let myPadShape := circle in
    let '(myPinsNum, myPins) :=
      if rows self =? 2 then
        let myPinsNum := Py.truediv (pins self) 2 in
        (myPinsNum,
         myPins ++ [padString
                      (Numbered (Py.add (Py.add myPinsNum (Py.Int i)) (Py.Int 1)))
                      myTH myPadShape
                      (Py.lit 0.00) (pitch self) (item thPinDim 0) (item thPinDim 1)
                      (Some (item thPinDim 2)) myLayers])
      else (myPinsNum, myPins) in
    match while_pins fuel self myTH myPadShape myLayers myPinsNum i myPins with
    | None => OutOfFuel
    | Some myPins =>
        if strain self then strain_block circle myLayers myPins
        else Returns myPins
    end.

(** Each iteration adds one to [i], which starts at 0, and the bound is at
    most [self.pins]: [self.pins] iterations are enough fuel
    ([printPins_fuel_enough] below). *)
Definition printPins (self : HarwinLtekFootprint) : outcome :=
  printPins_fuel (Z.to_nat (pins self)) self.

(** ** Reading the result *)

(** The pads handed to the caller: the list of a normal return, nothing
    otherwise. *)
Definition returned_pads (o : outcome) : list pad :=
  match o with
  | Returns myPins => myPins
  | _ => []
  end.

(** The pad carries the number [n] as its id ([3] and [3.0] both count as 3). *)
Definition has_id (n : Z) (p : pad) : bool :=
  match padID p with
  | Numbered m => Qeq_bool (Py.value m) (inject_Z n)
  | Anonymous => false
  end.

Definition is_numbered (p : pad) : bool :=
  match padID p with
  | Numbered _ => true
  | Anonymous => false
  end.

(** The pads one iteration of the loop appends, for the value [i] of the
    counter at its start. *)
Definition iteration_pads (self : HarwinLtekFootprint)
    (myTH : mount) (myPadShape : shape) (myLayers : layer_set)
    (myPinsNum : Py.num) (i : Z) : list pad :=
  padString (Numbered (Py.Int (i + 1))) myTH myPadShape
    (Py.fmul (Py.float i) (pitch self)) (Py.lit 0.00)
    (item thPinDim 0) (item thPinDim 1) (Some (item thPinDim 2)) myLayers
  :: (if rows self =? 2 then
        [padString (Numbered (Py.add (Py.add myPinsNum (Py.Int i)) (Py.Int 1)))
           myTH myPadShape (Py.lit 0.00) (pitch self)
           (item thPinDim 0) (item thPinDim 1) (Some (item thPinDim 2)) myLayers]
      else []).

(** [i, i+1, ..., i+n-1] *)
Definition counter_values (i : Z) (n : nat) : list Z :=
  map (fun k => i + Z.of_nat k) (seq 0 n).

(** The number of iterations left when the counter is [i]. *)
Definition iterations (myPinsNum : Py.num) (i : Z) : nat :=
  Z.to_nat (Qceiling (Py.value myPinsNum) - i).

(** ** Names for the parts of the result *)

(** The pad appended before the loop on every path that reaches it: id
    [str(i+1)] with [i = 0], at [(0.00, 0.00)], rectangular. *)
Definition pin1 (myTH : mount) (myLayers : layer_set) : pad :=
  padString (Numbered (Py.Int 1)) myTH rect (Py.lit 0.00) (Py.lit 0.00)
    (item thPinDim 0) (item thPinDim 1) (Some (item thPinDim 2)) myLayers.

(** The pad appended before the loop when [self.rows == 2]. *)
Definition row2_first (self : HarwinLtekFootprint)
    (myTH : mount) (myPadShape : shape) (myLayers : layer_set) : pad :=
  padString
    (Numbered (Py.add (Py.add (Py.truediv (pins self) 2) (Py.Int 0)) (Py.Int 1)))
    myTH myPadShape (Py.lit 0.00) (pitch self)
    (item thPinDim 0) (item thPinDim 1) (Some (item thPinDim 2)) myLayers.

(** The outcome of the statements after the loop, given the list the loop
    leaves: [strain_block] stops at its first statement, so a set [strain]
    raises NameError (the path lemmas below derive this from
    [printPins_fuel]). *)
Definition finish (self : HarwinLtekFootprint) (myPins : list pad) : outcome :=
  if strain self then Raises (NameError "mXCoord") else Returns myPins.

(** What every [padString.format] call of the SMD path passes for a numbered
    pad: [thSMD=myTH] with [myTH = "smd"], the sizes [self.thPinDim[0]] and
    [self.thPinDim[1]], and the drill text built from [self.thPinDim[2]]. *)
Definition smd_pad_from_thPinDim (p : pad) : Prop :=
  is_numbered p = true /\
  thSMD p = mount_smd /\
  xSize p = item thPinDim 0 /\
  ySize p = item thPinDim 1 /\
  drill p = Some (item thPinDim 2).

(** A pad with id 1 sits at (0, 0). *)
Definition id1_at_origin (p : pad) : Prop :=
  has_id 1 p = true -> xCoord p = 0%Q /\ yCoord p = 0%Q.

(** ** The constructor *)

(** [__init__(self, pins=2, rows=1, pitch=2.00, vert=True, strain=True,
    smd=False)]: an argument the caller does not pass is [None] and takes the
    default of the signature; the six attributes are stored as they come. *)
Definition __init__ (pins rows : option Z) (pitch : option Q)
    (vert strain smd : option bool) : HarwinLtekFootprint :=
  mkFootprint
    (match pins with Some v => v | None => 2 end)
    (match rows with Some v => v | None => 1 end)
    (match pitch with Some v => v | None => Py.lit 2.00 end)
    (match vert with Some v => v | None => true end)
    (match strain with Some v => v | None => true end)
    (match smd with Some v => v | None => false end).

(** ** The locals at the loop *)

(** [myTH]: ["smd"] on the SMD path, ["thru_hole"] on the other. *)
Definition path_mount (self : HarwinLtekFootprint) : mount :=
  if smd self then mount_smd else mount_thru_hole.

(** [myLayers] *)
Definition path_layers (self : HarwinLtekFootprint) : layer_set :=
  if smd self then F_Cu_F_Paste_F_Mask else All_Cu_All_Mask.

(** [myPadShape] when the loop is entered: still ["rect"] on the SMD path,
    set to ["circle"] on the through-hole path. *)
Definition loop_shape (self : HarwinLtekFootprint) : shape :=
  if smd self then rect else circle.

(** [myPinsNum] when the loop is entered. *)
Definition loop_bound (self : HarwinLtekFootprint) : Py.num :=
  if rows self =? 2 then Py.truediv (pins self) 2 else Py.Int (pins self).

(** The number of times the loop body runs. *)
Definition loop_count (self : HarwinLtekFootprint) : nat :=
  iterations (loop_bound self) 0.

(** [myPins] when the loop is entered. *)
Definition before_loop (self : HarwinLtekFootprint) : list pad :=
  pin1 (path_mount self) (path_layers self)
  :: (if rows self =? 2 then
        [row2_first self (path_mount self) (loop_shape self) (path_layers self)]
      else []).

(** What the loop appends. *)
Definition loop_pads (self : HarwinLtekFootprint) : list pad :=
  flat_map
    (iteration_pads self (path_mount self) (loop_shape self) (path_layers self)
       (loop_bound self))
    (counter_values 0 (loop_count self)).

(** A pad of the second row: its id was computed from [self.pins/2] and is a
    float. *)
Definition second_row (p : pad) : bool :=
  match padID p with
  | Numbered (Py.Float _) => true
  | _ => false
  end.

(** A pad line without its mount type, shape and layers. *)
Definition geometry (p : pad) : pad_id * Q * Q * Q * Q * option Q :=
  (padID p, xCoord p, yCoord p, xSize p, ySize p, drill p).

(** ** The range of exact pin counts *)

(** Up to this pin count, in absolute value, [self.pins/2] and every sum
    [myPinsNum+i+1] of the loop ([0 <= i < self.pins/2]) are whole or half
    numbers below 2^52 + 2 and binary64 holds them without rounding, so
    that the ids computed by [Py.truediv] and [Py.add] are the ids Python
    computes. *)
Definition max_exact_pins : Z := 2 ^ 52.

(** * Properties *)

(** ** The loop *)

Lemma ltb_ceiling (i : Z) (b : Py.num) :
  Py.ltb (Py.Int i) b = true <-> i < Qceiling (Py.value b).
Proof.
  unfold Py.ltb. cbn [Py.value].
  destruct (Qcompare_spec (inject_Z i) (Py.value b)) as [E | L | G].
  - rewrite <- E, Qceiling_Z. split; [discriminate | lia].
  - split; [intros _ | reflexivity].
    rewrite Zlt_Qlt. eapply Qlt_le_trans; [exact L | apply Qle_ceiling].
  - split; [discriminate | intros H; exfalso].
    apply Qlt_le_weak, Qceiling_resp_le in G.
    rewrite Qceiling_Z in G. lia.
Qed.

Lemma counter_values_S (i : Z) (n : nat) :
  counter_values i (S n) = i :: counter_values (i + 1) n.
Proof.
  unfold counter_values. cbn [seq map]. f_equal; [lia |].
  rewrite <- seq_shift, map_map. apply map_ext. intros k. lia.
Qed.

Section Loop.

Variable self : HarwinLtekFootprint.
Variables (myTH : mount) (myPadShape : shape) (myLayers : layer_set).
Variable myPinsNum : Py.num.

Let body := iteration_pads self myTH myPadShape myLayers myPinsNum.

(** With fuel for the iterations that are left, the loop ends and has
    appended the pads of each iteration, in the order of the counter. *)
Lemma while_pins_spec (fuel : nat) :
  forall (i : Z) (myPins : list pad),
    (iterations myPinsNum i <= fuel)%nat ->
    while_pins fuel self myTH myPadShape myLayers myPinsNum i myPins
    = Some (myPins ++ flat_map body (counter_values i (iterations myPinsNum i))).
Proof.
  induction fuel as [| fuel IH]; intros i myPins Hfuel; cbn [while_pins].
  - destruct (Py.ltb (Py.Int i) myPinsNum) eqn:C.
    + apply ltb_ceiling in C. unfold iterations in Hfuel. lia.
    + assert (N : ~ i < Qceiling (Py.value myPinsNum))
        by (rewrite <- ltb_ceiling, C; discriminate).
      unfold iterations. replace (Z.to_nat _) with 0%nat by lia.
      cbn. now rewrite app_nil_r.
  - destruct (Py.ltb (Py.Int i) myPinsNum) eqn:C.
    + apply ltb_ceiling in C.
      assert (E : iterations myPinsNum i = S (iterations myPinsNum (i + 1)))
        by (unfold iterations; lia).
      rewrite E, counter_values_S. cbn [flat_map].
      rewrite IH by lia.
      f_equal. unfold body, iteration_pads.
      destruct (rows self =? 2); now rewrite <- ?app_assoc.
    + assert (N : ~ i < Qceiling (Py.value myPinsNum))
        by (rewrite <- ltb_ceiling, C; discriminate).
      unfold iterations. replace (Z.to_nat _) with 0%nat by lia.
      cbn. now rewrite app_nil_r.
Qed.

End Loop.

(** ** The number of iterations *)

Lemma iterations_int (p : Z) : iterations (Py.Int p) 0 = Z.to_nat p.
Proof.
  unfold iterations. cbn [Py.value]. rewrite Qceiling_Z. f_equal. lia.
Qed.

Lemma ceiling_half (p : Z) :
  Qceiling (Py.value (Py.truediv p 2)) = (p + 1) / 2.
Proof.
  unfold Py.truediv, Py.fdiv. cbn [Py.value].
  assert (E : (Qred (inject_Z p / inject_Z 2) == p # 2)%Q).
  { rewrite Qred_correct. unfold Qeq, Qdiv, Qmult, Qinv, inject_Z. cbn. lia. }
  rewrite E. unfold Qceiling, Qfloor, Qopp. cbn [Qnum Qden].
  pose proof (Z.div_mod (- p) 2 ltac:(lia)).
  pose proof (Z.mod_pos_bound (- p) 2 ltac:(lia)).
  pose proof (Z.div_mod (p + 1) 2 ltac:(lia)).
  pose proof (Z.mod_pos_bound (p + 1) 2 ltac:(lia)).
  lia.
Qed.

Lemma iterations_half (p : Z) :
  iterations (Py.truediv p 2) 0 = Z.to_nat ((p + 1) / 2).
Proof.
  unfold iterations. rewrite ceiling_half. f_equal. lia.
Qed.

Lemma half_le (p : Z) : (Z.to_nat ((p + 1) / 2) <= Z.to_nat p)%nat.
Proof.
  pose proof (Z.div_mod (p + 1) 2 ltac:(lia)).
  pose proof (Z.mod_pos_bound (p + 1) 2 ltac:(lia)).
  lia.
Qed.

(** ** The four paths of printPins *)

Lemma printPins_smd_bad_rows (self : HarwinLtekFootprint) (fuel : nat) :
  smd self = true -> rows self <> 2 ->
  printPins_fuel fuel self = Raises (Exception (pins self)).
Proof.
  intros Hsmd Hrows. unfold printPins_fuel. rewrite Hsmd.
  apply Z.eqb_neq in Hrows. now rewrite Hrows.
Qed.

Lemma printPins_smd_two_rows (self : HarwinLtekFootprint) :
  smd self = true -> rows self = 2 ->
  printPins self =
  finish self
    (pin1 mount_smd F_Cu_F_Paste_F_Mask
     :: row2_first self mount_smd rect F_Cu_F_Paste_F_Mask
     :: flat_map
          (iteration_pads self mount_smd rect F_Cu_F_Paste_F_Mask
             (Py.truediv (pins self) 2))
          (counter_values 0 (Z.to_nat ((pins self + 1) / 2)))).
Proof.
  intros Hsmd Hrows. unfold printPins, printPins_fuel. rewrite Hsmd.
  apply Z.eqb_eq in Hrows. rewrite Hrows. cbv zeta.
  rewrite while_pins_spec by (rewrite iterations_half; apply half_le).
  rewrite iterations_half. unfold finish, strain_block, mXCoord.
  destruct (strain self); reflexivity.
Qed.

Lemma printPins_th_two_rows (self : HarwinLtekFootprint) :
  smd self = false -> rows self = 2 ->
  printPins self =
  finish self
    (pin1 mount_thru_hole All_Cu_All_Mask
     :: row2_first self mount_thru_hole circle All_Cu_All_Mask
     :: flat_map
          (iteration_pads self mount_thru_hole circle All_Cu_All_Mask
             (Py.truediv (pins self) 2))
          (counter_values 0 (Z.to_nat ((pins self + 1) / 2)))).
Proof.
  intros Hsmd Hrows. unfold printPins, printPins_fuel. rewrite Hsmd.
  apply Z.eqb_eq in Hrows. rewrite Hrows. cbv zeta beta iota.
  rewrite while_pins_spec by (rewrite iterations_half; apply half_le).
  rewrite iterations_half. unfold finish, strain_block, mXCoord.
  destruct (strain self); reflexivity.
Qed.

Lemma printPins_th_other_rows (self : HarwinLtekFootprint) :
  smd self = false -> rows self <> 2 ->
  printPins self =
  finish self
    (pin1 mount_thru_hole All_Cu_All_Mask
     :: flat_map
          (iteration_pads self mount_thru_hole circle All_Cu_All_Mask
             (Py.Int (pins self)))
          (counter_values 0 (Z.to_nat (pins self)))).
Proof.
  intros Hsmd Hrows. unfold printPins, printPins_fuel. rewrite Hsmd.
  apply Z.eqb_neq in Hrows. rewrite Hrows. cbv zeta beta iota.
  rewrite while_pins_spec by (rewrite iterations_int; apply Nat.le_refl).
  rewrite iterations_int. unfold finish, strain_block, mXCoord.
  destruct (strain self); reflexivity.
Qed.

(** [self.pins] iterations of fuel are enough: more fuel changes nothing, and
    the fuel never runs out. *)
Lemma printPins_fuel_enough (self : HarwinLtekFootprint) (fuel : nat) :
  (Z.to_nat (pins self) <= fuel)%nat ->
  printPins_fuel fuel self = printPins self.
Proof.
  intros Hfuel. unfold printPins, printPins_fuel.
  destruct (smd self); destruct (rows self =? 2); cbv zeta beta iota;
    try reflexivity;
    rewrite !while_pins_spec;
    try reflexivity;
    rewrite ?iterations_half, ?iterations_int;
    try apply Nat.le_refl; try apply half_le;
    try (etransitivity; [apply half_le | exact Hfuel]); try exact Hfuel.
Qed.


(** ** Concrete runs *)

Example run_th_1_row_2_pins :
  printPins (mkFootprint 2 1 (Py.lit 2.0) true false false) =
  Returns
    [padString (Numbered (Py.Int 1)) mount_thru_hole rect 0 0
       (27 # 20) (27 # 20) (Some (4 # 5)) All_Cu_All_Mask;
     padString (Numbered (Py.Int 1)) mount_thru_hole circle 0 0
       (27 # 20) (27 # 20) (Some (4 # 5)) All_Cu_All_Mask;
     padString (Numbered (Py.Int 2)) mount_thru_hole circle 2 0
       (27 # 20) (27 # 20) (Some (4 # 5)) All_Cu_All_Mask].
Proof. reflexivity. Qed.

Example run_smd_2_rows_2_pins :
  printPins (mkFootprint 2 2 (Py.lit 2.0) true false true) =
  Returns
    [padString (Numbered (Py.Int 1)) mount_smd rect 0 0
       (27 # 20) (27 # 20) (Some (4 # 5)) F_Cu_F_Paste_F_Mask;
     padString (Numbered (Py.Float 2)) mount_smd rect 0 2
       (27 # 20) (27 # 20) (Some (4 # 5)) F_Cu_F_Paste_F_Mask;
     padString (Numbered (Py.Int 1)) mount_smd rect 0 0
       (27 # 20) (27 # 20) (Some (4 # 5)) F_Cu_F_Paste_F_Mask;
     padString (Numbered (Py.Float 2)) mount_smd rect 0 2
       (27 # 20) (27 # 20) (Some (4 # 5)) F_Cu_F_Paste_F_Mask].
Proof. reflexivity. Qed.

Example run_th_2_rows_3_pins :
  map padID
    (returned_pads (printPins (mkFootprint 3 2 (Py.lit 2.0) true false false)))
  = [Numbered (Py.Int 1); Numbered (Py.Float (5 # 2));
     Numbered (Py.Int 1); Numbered (Py.Float (5 # 2));
     Numbered (Py.Int 2); Numbered (Py.Float (7 # 2))].
Proof. reflexivity. Qed.

Example run_defaults :
  printPins (mkFootprint 2 1 (Py.lit 2.00) true true false)
  = Raises (NameError "mXCoord").
Proof. reflexivity. Qed.

(** ** Auxiliary facts on lists and floats *)

Lemma fmul_float_0 (q : Q) : Py.fmul (Py.float 0) q = 0%Q.
Proof.
  unfold Py.fmul, Py.float. transitivity (Qred 0); [| reflexivity].
  apply Qred_complete. apply Qmult_0_l.
Qed.

Lemma flat_map_single {A B : Type} (f : A -> B) (l : list A) :
  flat_map (fun x => [f x]) l = map f l.
Proof.
  induction l as [| x l IH]; cbn; [reflexivity | now rewrite IH].
Qed.

Lemma two_in_filter {A : Type} (f : A -> bool) (p q : A) (l : list A) :
  f p = true -> In q l -> f q = true ->
  (2 <= List.length (filter f (p :: l)))%nat.
Proof.
  intros Fp Hq Fq. cbn [filter]. rewrite Fp. cbn [List.length].
  apply le_n_S.
  induction l as [| x l IH]; [contradiction |].
  cbn [filter]. destruct Hq as [-> | Hq].
  - rewrite Fq. cbn. lia.
  - destruct (f x); cbn [List.length]; auto.
Qed.

Lemma value_add (a b : Py.num) :
  (Py.value (Py.add a b) == Py.value a + Py.value b)%Q.
Proof.
  destruct a, b; cbn [Py.add Py.value]; unfold Py.fadd;
    rewrite ?Qred_correct, ?inject_Z_plus; reflexivity.
Qed.

Lemma value_half_pos (p : Z) : 1 <= p -> (0 < Py.value (Py.truediv p 2))%Q.
Proof.
  intros Hp. unfold Py.truediv, Py.fdiv. cbn [Py.value].
  rewrite Qred_correct. unfold Qlt, Qdiv, Qmult, Qinv, inject_Z. cbn. lia.
Qed.

Lemma counter_values_nonneg (n : nat) (i : Z) :
  In i (counter_values 0 n) -> 0 <= i.
Proof.
  unfold counter_values. rewrite in_map_iff. intros [k [<- _]]. lia.
Qed.

(** The first pad of the first iteration: pin 1 again, at (0, 0). *)
Lemma first_iteration (self : HarwinLtekFootprint)
    (myTH : mount) (myPadShape : shape) (myLayers : layer_set)
    (myPinsNum : Py.num) (n : nat) :
  In (padString (Numbered (Py.Int 1)) myTH myPadShape 0 0
        (item thPinDim 0) (item thPinDim 1) (Some (item thPinDim 2)) myLayers)
     (flat_map (iteration_pads self myTH myPadShape myLayers myPinsNum)
        (counter_values 0 (S n))).
Proof.
  rewrite counter_values_S. cbn [flat_map]. apply in_or_app. left.
  unfold iteration_pads. left. rewrite fmul_float_0. reflexivity.
Qed.

(** ** C1: pin 1 *)

Lemma iteration_id1_at_origin (self : HarwinLtekFootprint)
    (myTH : mount) (myPadShape : shape) (myLayers : layer_set)
    (myPinsNum : Py.num) (i : Z) :
  (0 < Py.value myPinsNum)%Q -> 0 <= i ->
  Forall id1_at_origin
    (iteration_pads self myTH myPadShape myLayers myPinsNum i).
Proof.
  intros Hpos Hi. unfold iteration_pads. constructor.
  - unfold id1_at_origin, has_id. cbn [padID xCoord yCoord Py.value].
    intros H. apply Qeq_bool_iff in H. unfold Qeq, inject_Z in H.
    cbn [Qnum Qden] in H.
    replace i with 0 by lia. rewrite fmul_float_0. split; reflexivity.
  - destruct (rows self =? 2); constructor; [| constructor].
    unfold id1_at_origin, has_id. cbn [padID].
    intros H. exfalso. apply Qeq_bool_iff in H.
    rewrite !value_add in H. cbn [Py.value] in H.
    assert (Hi' : (0 <= inject_Z i)%Q)
      by (unfold Qle, inject_Z; cbn; lia).
    change (inject_Z 1) with 1%Q in H. lra.
Qed.

Lemma row2_first_id1_at_origin (self : HarwinLtekFootprint)
    (myTH : mount) (myPadShape : shape) (myLayers : layer_set) :
  1 <= pins self ->
  id1_at_origin (row2_first self myTH myPadShape myLayers).
Proof.
  intros Hpins. unfold id1_at_origin, has_id, row2_first. cbn [padID].
  intros H. exfalso. apply Qeq_bool_iff in H.
  rewrite !value_add in H. cbn [Py.value Py.truediv] in H.
  pose proof (value_half_pos (pins self) Hpins) as Hpos.
  cbn [Py.value Py.truediv] in Hpos.
  change (inject_Z 0) with 0%Q in H. change (inject_Z 1) with 1%Q in H. lra.
Qed.

Lemma pin1_id1_at_origin (myTH : mount) (myLayers : layer_set) :
  id1_at_origin (pin1 myTH myLayers).
Proof. intros _. split; reflexivity. Qed.

Lemma loop_id1_at_origin (self : HarwinLtekFootprint)
    (myTH : mount) (myPadShape : shape) (myLayers : layer_set)
    (myPinsNum : Py.num) (n : nat) :
  (0 < Py.value myPinsNum)%Q ->
  Forall id1_at_origin
    (flat_map (iteration_pads self myTH myPadShape myLayers myPinsNum)
       (counter_values 0 n)).
Proof.
  intros Hpos. apply Forall_flat_map, Forall_forall. intros i Hi.
  apply iteration_id1_at_origin; [exact Hpos |].
  now apply counter_values_nonneg in Hi.
Qed.

Lemma half_iterations_succ (p : Z) :
  1 <= p -> exists n, Z.to_nat ((p + 1) / 2) = S n.
Proof.
  intros Hp. exists (Nat.pred (Z.to_nat ((p + 1) / 2))).
  pose proof (Z.div_mod (p + 1) 2 ltac:(lia)).
  pose proof (Z.mod_pos_bound (p + 1) 2 ltac:(lia)).
  lia.
Qed.

Lemma int_iterations_succ (p : Z) : 1 <= p -> exists n, Z.to_nat p = S n.
Proof. intros Hp. exists (Nat.pred (Z.to_nat p)). lia. Qed.

(** C1 (the code departs from the claim).  The claim asks for exactly one pad
    with id 1 in every returned list.  Whenever [printPins] returns for a
    spec with at least one pin, the list holds pin 1 at least twice: the pad
    appended before the loop and the pad of the iteration [i = 0].  On the
    through-hole path these are two distinct records, one rectangular and one
    circular.  The other half of the claim holds: every pad with id 1 is at
    (0, 0). *)
Theorem C1_pin1_emitted_twice (self : HarwinLtekFootprint) (l : list pad) :
  printPins self = Returns l -> 1 <= pins self ->
  let rect1 := padString (Numbered (Py.Int 1)) mount_thru_hole rect 0 0
                 (item thPinDim 0) (item thPinDim 1) (Some (item thPinDim 2))
                 All_Cu_All_Mask in
  let circle1 := padString (Numbered (Py.Int 1)) mount_thru_hole circle 0 0
                   (item thPinDim 0) (item thPinDim 1) (Some (item thPinDim 2))
                   All_Cu_All_Mask in
  (2 <= List.length (filter (has_id 1) l))%nat /\
  Forall id1_at_origin l /\
  (smd self = false -> In rect1 l /\ In circle1 l /\ rect1 <> circle1).
Proof.
  intros Hret Hpins rect1 circle1.
  assert (Hint : (0 < Py.value (Py.Int (pins self)))%Q)
    by (cbn [Py.value]; unfold Qlt, inject_Z; cbn; lia).
  pose proof (value_half_pos (pins self) Hpins) as Hhalf.
  destruct (half_iterations_succ (pins self) Hpins) as [nh Hnh].
  destruct (int_iterations_succ (pins self) Hpins) as [ni Hni].
  destruct (smd self) eqn:Hsmd; destruct (Z.eq_dec (rows self) 2) as [R | R].
  - rewrite printPins_smd_two_rows in Hret by assumption.
    unfold finish in Hret. destruct (strain self); [discriminate |].
    injection Hret as <-. rewrite Hnh.
    split; [| split; [| discriminate]].
    + eapply two_in_filter; [reflexivity | right; apply first_iteration
                            | reflexivity].
    + constructor; [apply pin1_id1_at_origin |].
      constructor; [now apply row2_first_id1_at_origin |].
      now apply loop_id1_at_origin.
  - unfold printPins in Hret.
    rewrite printPins_smd_bad_rows in Hret by assumption. discriminate.
  - rewrite printPins_th_two_rows in Hret by assumption.
    unfold finish in Hret. destruct (strain self); [discriminate |].
    injection Hret as <-. rewrite Hnh.
    split; [| split].
    + eapply two_in_filter; [reflexivity | right; apply first_iteration
                            | reflexivity].
    + constructor; [apply pin1_id1_at_origin |].
      constructor; [now apply row2_first_id1_at_origin |].
      now apply loop_id1_at_origin.
    + intros _. split; [left; reflexivity |].
      split; [right; right; apply first_iteration |].
      unfold rect1, circle1. congruence.
  - rewrite printPins_th_other_rows in Hret by assumption.
    unfold finish in Hret. destruct (strain self); [discriminate |].
    injection Hret as <-. rewrite Hni.
    split; [| split].
    + eapply two_in_filter; [reflexivity | apply first_iteration
                            | reflexivity].
    + constructor; [apply pin1_id1_at_origin |].
      now apply loop_id1_at_origin.
    + intros _. split; [left; reflexivity |].
      split; [right; apply first_iteration |].
      unfold rect1, circle1. congruence.
Qed.

Lemma C1_pin1_emitted_twice_witness :
  let self := mkFootprint 2 1 (Py.lit 2.0) true false false in
  (2 <= List.length (filter (has_id 1) (returned_pads (printPins self))))%nat /\
  Forall id1_at_origin (returned_pads (printPins self)).
Proof.
  intros self.
  destruct (C1_pin1_emitted_twice self (returned_pads (printPins self)))
    as [C [O _]].
  - vm_compute. reflexivity.
  - cbn. lia.
  - split; assumption.
Defined.

(** ** C2: the single through-hole row *)

(** C2 (the code departs from the claim).  The claim asks for exactly N
    records.  For a through-hole spec with one row, N >= 1 pins and no strain
    relief, [printPins] returns N + 1 records: the rectangular pin 1 at
    (0, 0), then for each k = 0 .. N-1 a circular pad with id k+1 at
    (float(k) * pitch, 0).  Pin 1 is therefore present as a rectangle and as a
    circle; ids, coordinates and the shapes of pads 2..N are as claimed. *)
Theorem C2_th_single_row_has_one_pad_too_many (self : HarwinLtekFootprint) :
  smd self = false -> rows self = 1 -> strain self = false -> 1 <= pins self ->
  printPins self =
  Returns
    (padString (Numbered (Py.Int 1)) mount_thru_hole rect 0 0
       (item thPinDim 0) (item thPinDim 1) (Some (item thPinDim 2))
       All_Cu_All_Mask
     :: map (fun k =>
               padString (Numbered (Py.Int (k + 1))) mount_thru_hole circle
                 (Py.fmul (Py.float k) (pitch self)) 0
                 (item thPinDim 0) (item thPinDim 1) (Some (item thPinDim 2))
                 All_Cu_All_Mask)
            (counter_values 0 (Z.to_nat (pins self))))
  /\ List.length (returned_pads (printPins self)) = S (Z.to_nat (pins self)).
Proof.
  intros Hsmd Hrows Hstrain Hpins.
  rewrite printPins_th_other_rows by (assumption || lia).
  unfold finish. rewrite Hstrain. unfold iteration_pads.
  replace (rows self =? 2) with false by (rewrite Hrows; reflexivity).
  rewrite flat_map_single. split; [reflexivity |].
  cbn [returned_pads List.length]. f_equal.
  unfold counter_values. now rewrite !length_map, length_seq.
Qed.

Lemma C2_th_single_row_has_one_pad_too_many_witness :
  List.length
    (returned_pads (printPins (mkFootprint 1 1 (Py.lit 2.0) true false false)))
  = 2%nat.
Proof.
  apply (C2_th_single_row_has_one_pad_too_many
           (mkFootprint 1 1 (Py.lit 2.0) true false false));
    solve [reflexivity | cbn; lia].
Defined.

(** ** C3: strain relief *)

(** C3 (the code departs from the claim).  The claim asks for a normal return
    with four anonymous pads appended.  With [strain] set, [printPins] never
    returns: the first statement of either strain-relief block reads the
    unbound name [mXCoord] and raises NameError (on the SMD path with a row
    count other than 2 the row-count exception is raised before that), so no
    pad list reaches the caller. *)
Theorem C3_strain_relief_always_raises (self : HarwinLtekFootprint) :
  strain self = true ->
  printPins self =
  Raises (if smd self && negb (rows self =? 2)
          then Exception (pins self)
          else NameError "mXCoord")
  /\ returned_pads (printPins self) = [].
Proof.
  intros Hstrain.
  assert (H : printPins self =
              Raises (if smd self && negb (rows self =? 2)
                      then Exception (pins self)
                      else NameError "mXCoord")).
  { destruct (smd self) eqn:Hsmd; destruct (Z.eq_dec (rows self) 2) as [R | R].
    - rewrite printPins_smd_two_rows by assumption.
      unfold finish. rewrite Hstrain, R. reflexivity.
    - unfold printPins. rewrite printPins_smd_bad_rows by assumption.
      apply Z.eqb_neq in R. rewrite R. reflexivity.
    - rewrite printPins_th_two_rows by assumption.
      unfold finish. rewrite Hstrain. reflexivity.
    - rewrite printPins_th_other_rows by assumption.
      unfold finish. rewrite Hstrain. reflexivity. }
  split; [exact H | rewrite H; reflexivity].
Qed.

Lemma C3_strain_relief_always_raises_witness :
  printPins (mkFootprint 2 1 (Py.lit 2.00) true true false)
  = Raises (NameError "mXCoord").
Proof.
  apply (C3_strain_relief_always_raises
           (mkFootprint 2 1 (Py.lit 2.00) true true false)).
  reflexivity.
Defined.

(** ** C4: the row count of an SMD connector *)

(** C4.  For every spec with [smd] set and a row count other than 2,
    [printPins] raises the row-count exception (the spec's
    ConfigurationError; the source raises a plain [Exception] whose message
    is formatted with [self.pins]) and hands no pad to the caller.  Nothing
    is appended to [myPins] before the raise, and the outcome does not depend
    on the fuel. *)
Theorem C4_smd_bad_row_count_raises (self : HarwinLtekFootprint) :
  smd self = true -> rows self <> 2 ->
  printPins self = Raises (Exception (pins self))
  /\ returned_pads (printPins self) = []
  /\ forall fuel, printPins_fuel fuel self = Raises (Exception (pins self)).
Proof.
  intros Hsmd Hrows.
  assert (H : forall fuel, printPins_fuel fuel self = Raises (Exception (pins self)))
    by (intros fuel; now apply printPins_smd_bad_rows).
  unfold printPins. rewrite H. auto.
Qed.

Lemma C4_smd_bad_row_count_raises_witness :
  printPins (mkFootprint 4 1 (Py.lit 2.0) true false true)
  = Raises (Exception 4).
Proof.
  apply (C4_smd_bad_row_count_raises
           (mkFootprint 4 1 (Py.lit 2.0) true false true)).
  - reflexivity.
  - cbn. lia.
Defined.

(** ** C5 and C6: the numbered pads of the SMD path *)

Lemma smd_two_rows_pads (self : HarwinLtekFootprint) :
  smd self = true -> rows self = 2 -> strain self = false ->
  exists p l,
    printPins self = Returns (p :: l) /\
    Forall smd_pad_from_thPinDim (p :: l).
Proof.
  intros Hsmd Hrows Hstrain.
  rewrite printPins_smd_two_rows by assumption.
  unfold finish. rewrite Hstrain.
  do 2 eexists. split; [reflexivity |].
  constructor; [repeat split |].
  constructor; [repeat split |].
  apply Forall_flat_map, Forall_forall. intros i _.
  unfold iteration_pads. destruct (rows self =? 2);
    repeat constructor.
Qed.

(** C5 (the code departs from the claim).  The claim wants no drill on an SMD
    numbered pad.  For every spec with [smd] set, two rows and no strain
    relief, [printPins] returns a non-empty list in which every pad is
    numbered, has mount type smd, and carries the drill 0.8 of [thPinDim]. *)
Theorem C5_smd_numbered_pads_carry_a_drill (self : HarwinLtekFootprint) :
  smd self = true -> rows self = 2 -> strain self = false ->
  exists p l,
    printPins self = Returns (p :: l) /\
    Forall (fun q => is_numbered q = true /\ thSMD q = mount_smd /\
                     drill q = Some (Py.lit 0.8))
           (p :: l).
Proof.
  intros Hsmd Hrows Hstrain.
  destruct (smd_two_rows_pads self Hsmd Hrows Hstrain) as [p [l [E F]]].
  exists p, l. split; [exact E |].
  revert F. apply Forall_impl.
  intros q [N [M [_ [_ D]]]]. auto.
Qed.

Lemma C5_smd_numbered_pads_carry_a_drill_witness :
  exists p l,
    printPins (mkFootprint 4 2 (Py.lit 2.0) true false true) = Returns (p :: l) /\
    Forall (fun q => is_numbered q = true /\ thSMD q = mount_smd /\
                     drill q = Some (Py.lit 0.8))
           (p :: l).
Proof.
  apply (C5_smd_numbered_pads_carry_a_drill
           (mkFootprint 4 2 (Py.lit 2.0) true false true));
    reflexivity.
Defined.

(** C6 (the code departs from the claim).  The claim wants the size
    [smdPadDim] = (1.00, 3.20) on every SMD numbered pad.  For every spec with
    [smd] set, two rows and no strain relief, every pad of the returned list
    is numbered and has the size (1.35, 1.35) of [thPinDim]; [smdPadDim] is
    not read, and neither of its entries equals the size used. *)
Theorem C6_smd_numbered_pads_use_thPinDim (self : HarwinLtekFootprint) :
  smd self = true -> rows self = 2 -> strain self = false ->
  exists p l,
    printPins self = Returns (p :: l) /\
    Forall (fun q => is_numbered q = true /\
                     xSize q = Py.lit 1.35 /\ ySize q = Py.lit 1.35 /\
                     ~ (xSize q == item smdPadDim 0)%Q /\
                     ~ (ySize q == item smdPadDim 1)%Q)
           (p :: l).
Proof.
  intros Hsmd Hrows Hstrain.
  destruct (smd_two_rows_pads self Hsmd Hrows Hstrain) as [p [l [E F]]].
  exists p, l. split; [exact E |].
  revert F. apply Forall_impl.
  intros q [N [_ [X [Y _]]]]. rewrite X, Y.
  repeat split; auto; intros C; vm_compute in C; discriminate C.
Qed.

Lemma C6_smd_numbered_pads_use_thPinDim_witness :
  exists p l,
    printPins (mkFootprint 4 2 (Py.lit 2.0) true false true) = Returns (p :: l) /\
    Forall (fun q => is_numbered q = true /\
                     xSize q = Py.lit 1.35 /\ ySize q = Py.lit 1.35 /\
                     ~ (xSize q == item smdPadDim 0)%Q /\
                     ~ (ySize q == item smdPadDim 1)%Q)
           (p :: l).
Proof.
  apply (C6_smd_numbered_pads_use_thPinDim
           (mkFootprint 4 2 (Py.lit 2.0) true false true));
    reflexivity.
Defined.

(** ** C7: two through-hole rows, four pins, pitch 2.0 *)

(** C7 (the code departs from the claim).  The claim asks for the ids
    1, 2, 3, 4.  For rows = 2, smd = false, pins = 4, pitch = 2.0 and no
    strain relief (either value of [vert]), [printPins] returns six pads
    whose ids are, in order, 1, 3.0, 1, 3.0, 2, 4.0: [self.pins/2] is a true
    division, so the ids of the second row are the floats 3.0 and 4.0 and no
    pad has the id 3 or 4.  The other half of the claim holds: every pad of
    the second row has y = 2.0. *)
Theorem C7_second_row_ids_are_floats (v : bool) :
  exists l,
    printPins (mkFootprint 4 2 (Py.lit 2.0) v false false) = Returns l /\
    map padID l =
      [Numbered (Py.Int 1); Numbered (Py.Float 3);
       Numbered (Py.Int 1); Numbered (Py.Float 3);
       Numbered (Py.Int 2); Numbered (Py.Float 4)] /\
    Forall (fun p => padID p <> Numbered (Py.Int 3) /\
                     padID p <> Numbered (Py.Int 4)) l /\
    Forall (fun p => second_row p = true -> yCoord p = Py.lit 2.0) l.
Proof.
  eexists. split; [destruct v; vm_compute; reflexivity |].
  split; [reflexivity |].
  split.
  - repeat constructor; discriminate.
  - repeat (constructor; [intros H; try discriminate H; reflexivity |]).
    constructor.
Qed.

(** ** C8: the first pad of the second row *)

Lemma Qred_inject_Z (k : Z) : Qred (inject_Z k) = inject_Z k.
Proof.
  apply Qcanon.Qred_identity. unfold inject_Z. cbn [Qnum Qden].
  apply Z.gcd_1_r.
Qed.

(** For an even pin count the id computed for the first pad of the second
    row is the float pins/2 + 1. *)
Lemma row2_first_id_float (p : Z) :
  Z.even p = true ->
  Py.add (Py.add (Py.truediv p 2) (Py.Int 0)) (Py.Int 1)
  = Py.Float (inject_Z (p / 2 + 1)).
Proof.
  intros Heven. apply Z.even_spec in Heven. destruct Heven as [m Hm].
  replace (p / 2) with m by (rewrite Hm, Z.mul_comm, Z.div_mul; lia).
  unfold Py.truediv. cbn [Py.add Py.value]. f_equal.
  unfold Py.fadd, Py.fdiv. rewrite <- (Qred_inject_Z (m + 1)).
  apply Qred_complete. rewrite !Qred_correct.
  rewrite Hm, !inject_Z_plus, inject_Z_mult.
  change (inject_Z 2) with 2%Q. change (inject_Z 1) with 1%Q.
  change (inject_Z 0) with 0%Q. field.
Qed.

(** C8 (the code departs from the claim).  The claim asks for the id
    pins/2 + 1.  For every spec with two rows and an even pin count (within
    [max_exact_pins]) on which [printPins] returns a list [l]: the list
    starts with pin 1 followed by the first pad of the second row, whose id
    is the float pins/2 + 1 (3.0 for four pins), not the integer, because
    [self.pins/2] is a true division.  The rest of the claim holds: that pad
    sits at (0, pitch), the loop is entered with exactly these two pads in
    [myPins], and everything the loop appends comes after them in [l]. *)
Theorem C8_second_row_first_pad_id_is_a_float
    (self : HarwinLtekFootprint) (l : list pad) :
  rows self = 2 -> Z.even (pins self) = true ->
  Z.abs (pins self) <= max_exact_pins ->
  printPins self = Returns l ->
  exists p1 p2 loop_pads,
    l = p1 :: p2 :: loop_pads /\
    padID p1 = Numbered (Py.Int 1) /\
    padID p2 = Numbered (Py.Float (inject_Z (pins self / 2 + 1))) /\
    padID p2 <> Numbered (Py.Int (pins self / 2 + 1)) /\
    xCoord p2 = 0%Q /\ yCoord p2 = pitch self /\
    while_pins (Z.to_nat (pins self)) self (thSMD p2) (padShape p2) (layers p2)
      (Py.truediv (pins self) 2) 0 [p1; p2] = Some l /\
    loop_pads =
      flat_map
        (iteration_pads self (thSMD p2) (padShape p2) (layers p2)
           (Py.truediv (pins self) 2))
        (counter_values 0 (iterations (Py.truediv (pins self) 2) 0)).
Proof.
  intros Hrows Heven _ Hret.
  destruct (smd self) eqn:Hsmd.
  - rewrite printPins_smd_two_rows in Hret by assumption.
    unfold finish in Hret. destruct (strain self); [discriminate |].
    injection Hret as <-.
    do 3 eexists. split; [reflexivity |].
    split; [reflexivity |].
    cbn [padID row2_first]. rewrite (row2_first_id_float _ Heven).
    split; [reflexivity |]. split; [discriminate |].
    split; [reflexivity |]. split; [reflexivity |].
    cbn [thSMD padShape layers].
    rewrite while_pins_spec by (rewrite iterations_half; apply half_le).
    rewrite iterations_half. unfold row2_first.
    rewrite (row2_first_id_float _ Heven). split; reflexivity.
  - rewrite printPins_th_two_rows in Hret by assumption.
    unfold finish in Hret. destruct (strain self); [discriminate |].
    injection Hret as <-.
    do 3 eexists. split; [reflexivity |].
    split; [reflexivity |].
    cbn [padID row2_first]. rewrite (row2_first_id_float _ Heven).
    split; [reflexivity |]. split; [discriminate |].
    split; [reflexivity |]. split; [reflexivity |].
    cbn [thSMD padShape layers].
    rewrite while_pins_spec by (rewrite iterations_half; apply half_le).
    rewrite iterations_half. unfold row2_first.
    rewrite (row2_first_id_float _ Heven). split; reflexivity.
Qed.

Lemma C8_second_row_first_pad_id_is_a_float_witness :
  let self := mkFootprint 4 2 (Py.lit 2.0) true false false in
  exists p1 p2 loop_pads,
    returned_pads (printPins self) = p1 :: p2 :: loop_pads /\
    padID p1 = Numbered (Py.Int 1) /\
    padID p2 = Numbered (Py.Float 3) /\
    padID p2 <> Numbered (Py.Int 3) /\
    xCoord p2 = 0%Q /\ yCoord p2 = Py.lit 2.0 /\
    while_pins 4 self (thSMD p2) (padShape p2) (layers p2)
      (Py.truediv 4 2) 0 [p1; p2] = Some (returned_pads (printPins self)) /\
    loop_pads =
      flat_map
        (iteration_pads self (thSMD p2) (padShape p2) (layers p2)
           (Py.truediv 4 2))
        (counter_values 0 (iterations (Py.truediv 4 2) 0)).
Proof.
  intros self.
  apply (C8_second_row_first_pad_id_is_a_float self
           (returned_pads (printPins self))).
  - reflexivity.
  - reflexivity.
  - unfold max_exact_pins. cbn. lia.
  - vm_compute. reflexivity.
Defined.

(** ** C9: the [vert] attribute *)

Lemma while_pins_reads_rows_and_pitch (s1 s2 : HarwinLtekFootprint)
    (myTH : mount) (myPadShape : shape) (myLayers : layer_set)
    (myPinsNum : Py.num) (fuel : nat) :
  rows s1 = rows s2 -> pitch s1 = pitch s2 ->
  forall (i : Z) (myPins : list pad),
    while_pins fuel s1 myTH myPadShape myLayers myPinsNum i myPins
    = while_pins fuel s2 myTH myPadShape myLayers myPinsNum i myPins.
Proof.
  intros Hrows Hpitch.
  induction fuel as [| fuel IH]; intros i myPins; cbn [while_pins].
  - reflexivity.
  - destruct (Py.ltb (Py.Int i) myPinsNum); [| reflexivity].
    rewrite Hrows, Hpitch. apply IH.
Qed.

(** C9.  Two specs that agree on every attribute but [vert] have the same
    outcome of [printPins], pad for pad and error for error: [self.vert] is
    stored by the constructor and never read, so a right-angle part gets the
    geometry of the vertical part and is not rejected for being right-angle. *)
Theorem C9_vert_is_never_read (s1 s2 : HarwinLtekFootprint) :
  pins s1 = pins s2 -> rows s1 = rows s2 -> pitch s1 = pitch s2 ->
  strain s1 = strain s2 -> smd s1 = smd s2 ->
  printPins s1 = printPins s2.
Proof.
  intros Hpins Hrows Hpitch Hstrain Hsmd.
  unfold printPins, printPins_fuel.
  rewrite Hpins, Hrows, Hpitch, Hstrain, Hsmd.
  destruct (smd s2); destruct (rows s2 =? 2); cbv zeta beta iota;
    try reflexivity;
    now rewrite (while_pins_reads_rows_and_pitch s1 s2).
Qed.

Lemma C9_vert_is_never_read_witness :
  printPins (mkFootprint 4 2 (Py.lit 2.0) true false false)
  = printPins (mkFootprint 4 2 (Py.lit 2.0) false false false).
Proof.
  apply (C9_vert_is_never_read
           (mkFootprint 4 2 (Py.lit 2.0) true false false)
           (mkFootprint 4 2 (Py.lit 2.0) false false false));
    reflexivity.
Defined.

(** ** C10: through-hole parts with a row count other than 2 *)

(** C10 (the code departs from the claim).  The claim says that no error is
    raised.  For every through-hole spec with a row count other than 2 (1, 0,
    3, negative, ...): with [strain] set, [printPins] raises NameError for
    the unbound name [mXCoord]; with [strain] clear it returns, treating the
    part as a single row: pin 1 followed by one pad per value 0 .. pins-1 of
    the counter, every pad numbered and at y = 0. *)
Theorem C10_th_other_row_counts (self : HarwinLtekFootprint) :
  smd self = false -> rows self <> 2 ->
  (strain self = true -> printPins self = Raises (NameError "mXCoord")) /\
  (strain self = false ->
   exists l,
     printPins self = Returns l /\
     List.length l = S (Z.to_nat (pins self)) /\
     Forall (fun p => is_numbered p = true /\ yCoord p = 0%Q) l).
Proof.
  intros Hsmd Hrows.
  rewrite printPins_th_other_rows by assumption. unfold finish.
  split; intros ->; [reflexivity |].
  eexists. split; [reflexivity |].
  unfold iteration_pads.
  apply Z.eqb_neq in Hrows. rewrite Hrows, flat_map_single.
  split.
  - cbn [List.length]. f_equal.
    unfold counter_values. now rewrite !length_map, length_seq.
  - constructor; [split; reflexivity |].
    apply Forall_map, Forall_forall. intros i _. split; reflexivity.
Qed.

Lemma C10_th_other_row_counts_witness :
  printPins (mkFootprint 2 3 (Py.lit 2.0) true true false)
  = Raises (NameError "mXCoord").
Proof.
  apply (C10_th_other_row_counts
           (mkFootprint 2 3 (Py.lit 2.0) true true false)).
  - reflexivity.
  - cbn. lia.
  - reflexivity.
Defined.

(** * Further properties of [printPins] *)

(** ** The outcome on every path *)

Lemma loop_count_le (self : HarwinLtekFootprint) :
  (loop_count self <= Z.to_nat (pins self))%nat.
Proof.
  unfold loop_count, loop_bound. destruct (rows self =? 2).
  - rewrite iterations_half. apply half_le.
  - rewrite iterations_int. apply Nat.le_refl.
Qed.

Lemma printPins_outcome (self : HarwinLtekFootprint) :
  printPins self =
  if smd self && negb (rows self =? 2)
  then Raises (Exception (pins self))
  else finish self (before_loop self ++ loop_pads self).
Proof.
  unfold before_loop, loop_pads, loop_count, loop_bound,
    path_mount, path_layers, loop_shape.
  destruct (smd self) eqn:Hsmd; destruct (Z.eq_dec (rows self) 2) as [R | R].
  - rewrite printPins_smd_two_rows by assumption.
    apply Z.eqb_eq in R. rewrite R, iterations_half. reflexivity.
  - unfold printPins. rewrite printPins_smd_bad_rows by assumption.
    apply Z.eqb_neq in R. rewrite R. reflexivity.
  - rewrite printPins_th_two_rows by assumption.
    apply Z.eqb_eq in R. rewrite R, iterations_half. reflexivity.
  - rewrite printPins_th_other_rows by assumption.
    apply Z.eqb_neq in R. rewrite R, iterations_int. reflexivity.
Qed.

Lemma printPins_returns_inv (self : HarwinLtekFootprint) (l : list pad) :
  printPins self = Returns l ->
  strain self = false /\ (smd self = false \/ rows self = 2) /\
  l = before_loop self ++ loop_pads self.
Proof.
  rewrite printPins_outcome. unfold finish.
  destruct (smd self); destruct (rows self =? 2) eqn:R; cbn [andb negb];
    try discriminate;
    destruct (strain self); try discriminate;
    intros H; injection H as <-;
    repeat split; auto.
  right. now apply Z.eqb_eq.
Qed.

(** X1.  For a pin count within [max_exact_pins] (beyond the float range
    the division [self.pins/2] itself raises), [printPins] returns a list
    exactly when [strain] is clear and the part is through-hole or has two
    rows, and raises an exception exactly when [strain] is set or the part
    is SMD with a row count other than 2. *)
Theorem X1_returns_iff (self : HarwinLtekFootprint) :
  Z.abs (pins self) <= max_exact_pins ->
  ((exists l, printPins self = Returns l) <->
   strain self = false /\ (smd self = false \/ rows self = 2)) /\
  ((exists e, printPins self = Raises e) <->
   strain self = true \/ (smd self = true /\ rows self <> 2)).
Proof.
  intros _. rewrite printPins_outcome. unfold finish.
  destruct (smd self); destruct (Z.eqb_spec (rows self) 2) as [R | R];
    cbn [andb negb]; destruct (strain self);
    (split;
     (split;
      [ intros [x H]; try discriminate H; auto
      | intros H; try (eexists; reflexivity);
        exfalso; intuition (discriminate || congruence) ])).
Qed.

Lemma X1_returns_iff_witness :
  exists l, printPins (mkFootprint 3 1 (Py.lit 2.0) false false false) = Returns l.
Proof.
  apply (X1_returns_iff (mkFootprint 3 1 (Py.lit 2.0) false false false)).
  - unfold max_exact_pins. cbn. lia.
  - split; [reflexivity | left; reflexivity].
Defined.

(** ** What every returned pad looks like *)

Lemma Forall_returned (P : pad -> Prop) (self : HarwinLtekFootprint)
    (l : list pad) :
  printPins self = Returns l ->
  Forall P (before_loop self) ->
  (forall i, 0 <= i ->
     Forall P (iteration_pads self (path_mount self) (loop_shape self)
                 (path_layers self) (loop_bound self) i)) ->
  Forall P l.
Proof.
  intros Hret Hpre Hloop.
  apply printPins_returns_inv in Hret. destruct Hret as [_ [_ ->]].
  apply Forall_app. split; [exact Hpre |].
  unfold loop_pads. apply Forall_flat_map, Forall_forall.
  intros i Hi. apply Hloop. now apply counter_values_nonneg in Hi.
Qed.

(** X2.  Whatever the spec, a list returned by [printPins] holds numbered
    pads only, each with the size (1.35, 1.35) and the drill 0.8 of
    [thPinDim]: no anonymous pad and no value of [strainPinDim] or
    [smdPadDim] ever reaches the caller. *)
Theorem X2_returned_pads_are_numbered_thPinDim_pads
    (self : HarwinLtekFootprint) (l : list pad) :
  printPins self = Returns l ->
  Forall (fun p => is_numbered p = true /\
                   xSize p = Py.lit 1.35 /\ ySize p = Py.lit 1.35 /\
                   drill p = Some (Py.lit 0.8)) l.
Proof.
  intros Hret. apply (Forall_returned _ self l Hret).
  - unfold before_loop. destruct (rows self =? 2); repeat constructor.
  - intros i _. unfold iteration_pads.
    destruct (rows self =? 2); repeat constructor.
Qed.

Lemma X2_returned_pads_are_numbered_thPinDim_pads_witness :
  Forall (fun p => is_numbered p = true /\
                   xSize p = Py.lit 1.35 /\ ySize p = Py.lit 1.35 /\
                   drill p = Some (Py.lit 0.8))
    (returned_pads (printPins (mkFootprint 4 2 (Py.lit 2.0) true false true))).
Proof.
  apply (X2_returned_pads_are_numbered_thPinDim_pads
           (mkFootprint 4 2 (Py.lit 2.0) true false true)).
  vm_compute. reflexivity.
Defined.

(** X3.  In a returned list every pad has the mount type and the layer set of
    the path taken: smd with F.Cu F.Paste F.Mask when [smd] is set,
    thru_hole with *.Cu *.Mask otherwise.  The two never mix. *)
Theorem X3_mount_and_layers_follow_smd
    (self : HarwinLtekFootprint) (l : list pad) :
  printPins self = Returns l ->
  Forall (fun p =>
            (thSMD p, layers p) =
            if smd self then (mount_smd, F_Cu_F_Paste_F_Mask)
            else (mount_thru_hole, All_Cu_All_Mask)) l.
Proof.
  intros Hret. apply (Forall_returned _ self l Hret).
  - unfold before_loop, path_mount, path_layers.
    destruct (smd self); destruct (rows self =? 2); repeat constructor.
  - intros i _. unfold iteration_pads, path_mount, path_layers.
    destruct (smd self); destruct (rows self =? 2); repeat constructor.
Qed.

Lemma X3_mount_and_layers_follow_smd_witness :
  Forall (fun p => (thSMD p, layers p) = (mount_thru_hole, All_Cu_All_Mask))
    (returned_pads (printPins (mkFootprint 4 2 (Py.lit 2.0) true false false))).
Proof.
  apply (X3_mount_and_layers_follow_smd
           (mkFootprint 4 2 (Py.lit 2.0) true false false)).
  vm_compute. reflexivity.
Defined.

(** X4.  A returned list is never empty and starts with a rectangular pin 1
    at (0, 0).  On the through-hole path every pad after the first is a
    circle (the second pin 1 included); on the SMD path every pad is a
    rectangle. *)
Theorem X4_shapes (self : HarwinLtekFootprint) (l : list pad) :
  printPins self = Returns l ->
  exists p t,
    l = p :: t /\
    padID p = Numbered (Py.Int 1) /\ padShape p = rect /\
    xCoord p = 0%Q /\ yCoord p = 0%Q /\
    Forall (fun q => padShape q = if smd self then rect else circle) t.
Proof.
  intros Hret.
  apply printPins_returns_inv in Hret. destruct Hret as [_ [_ ->]].
  unfold before_loop. cbn [app]. do 2 eexists.
  split; [reflexivity |]. repeat (split; [reflexivity |]).
  apply Forall_app. split.
  - unfold loop_shape. destruct (rows self =? 2); repeat constructor.
  - unfold loop_pads. apply Forall_flat_map, Forall_forall. intros i _.
    unfold iteration_pads, loop_shape.
    destruct (rows self =? 2); repeat constructor.
Qed.

Lemma X4_shapes_witness :
  exists p t,
    returned_pads (printPins (mkFootprint 3 1 (Py.lit 2.0) true false false))
    = p :: t /\
    padID p = Numbered (Py.Int 1) /\ padShape p = rect /\
    xCoord p = 0%Q /\ yCoord p = 0%Q /\
    Forall (fun q => padShape q = circle) t.
Proof.
  apply (X4_shapes (mkFootprint 3 1 (Py.lit 2.0) true false false)).
  vm_compute. reflexivity.
Defined.

(** ** How many pads *)

Lemma length_flat_map_const {A B : Type} (f : A -> list B) (k : nat)
    (l : list A) :
  (forall x, List.length (f x) = k) ->
  List.length (flat_map f l) = (k * List.length l)%nat.
Proof.
  intros Hk. induction l as [| x l IH]; cbn [flat_map List.length].
  - lia.
  - rewrite length_app, Hk, IH. lia.
Qed.

Lemma length_counter_values (i : Z) (n : nat) :
  List.length (counter_values i n) = n.
Proof. unfold counter_values. now rewrite length_map, length_seq. Qed.

Lemma length_of_result (self : HarwinLtekFootprint) :
  Z.of_nat (List.length (before_loop self ++ loop_pads self)) =
  if rows self =? 2 then 2 + 2 * Z.max ((pins self + 1) / 2) 0
  else 1 + Z.max (pins self) 0.
Proof.
  rewrite length_app. unfold loop_pads, before_loop, loop_count, loop_bound.
  destruct (rows self =? 2) eqn:R.
  - rewrite (length_flat_map_const _ 2%nat)
      by (intros i; unfold iteration_pads; rewrite R; reflexivity).
    rewrite length_counter_values, iterations_half. cbn [List.length]. lia.
  - rewrite (length_flat_map_const _ 1%nat)
      by (intros i; unfold iteration_pads; rewrite R; reflexivity).
    rewrite length_counter_values, iterations_int. cbn [List.length]. lia.
Qed.

(** X5.  The length of a returned list.  With a row count other than 2 it is
    1 + max(pins, 0): one pad more than the part has pins.  With two rows it
    is 2 + 2 * ceil(pins / 2), which for an even pin count is pins + 2 and
    for an odd one pins + 3. *)
Theorem X5_number_of_pads (self : HarwinLtekFootprint) (l : list pad) :
  printPins self = Returns l ->
  Z.of_nat (List.length l) =
  if rows self =? 2 then 2 + 2 * Z.max ((pins self + 1) / 2) 0
  else 1 + Z.max (pins self) 0.
Proof.
  intros Hret.
  apply printPins_returns_inv in Hret. destruct Hret as [_ [_ ->]].
  apply length_of_result.
Qed.

Lemma X5_number_of_pads_witness :
  Z.of_nat
    (List.length
       (returned_pads (printPins (mkFootprint 3 2 (Py.lit 2.0) true false false))))
  = 6.
Proof.
  apply (X5_number_of_pads (mkFootprint 3 2 (Py.lit 2.0) true false false)).
  vm_compute. reflexivity.
Defined.

(** ** No pins *)

(** X6.  A pin count of zero or below (down to [- max_exact_pins]) is not
    rejected.  The loop body never runs, and the pads appended before the
    loop are returned on their own: pin 1 alone for a row count other than
    2, pin 1 and the first pad of the second row for two rows.  A part
    without pins still gets a pad 1. *)
Theorem X6_no_pins_still_gives_pin1 (self : HarwinLtekFootprint) :
  - max_exact_pins <= pins self <= 0 -> strain self = false ->
  smd self = false \/ rows self = 2 ->
  printPins self =
  Returns
    (pin1 (path_mount self) (path_layers self)
     :: (if rows self =? 2 then
           [row2_first self (path_mount self) (loop_shape self)
              (path_layers self)]
         else [])).
Proof.
  intros [_ Hpins] Hstrain Hpath.
  rewrite printPins_outcome. unfold finish. rewrite Hstrain.
  replace (smd self && negb (rows self =? 2)) with false.
  - unfold loop_pads, loop_count, loop_bound.
    replace (iterations _ 0) with 0%nat.
    + cbn [counter_values seq map flat_map]. now rewrite app_nil_r.
    + destruct (rows self =? 2).
      * rewrite iterations_half.
        pose proof (Z.div_mod (pins self + 1) 2 ltac:(lia)).
        pose proof (Z.mod_pos_bound (pins self + 1) 2 ltac:(lia)).
        lia.
      * rewrite iterations_int. lia.
  - destruct Hpath as [-> | ->]; [reflexivity |].
    now rewrite andb_false_r.
Qed.

Lemma X6_no_pins_still_gives_pin1_witness :
  printPins (mkFootprint 0 1 (Py.lit 2.0) true false false) =
  Returns [pin1 mount_thru_hole All_Cu_All_Mask].
Proof.
  apply (X6_no_pins_still_gives_pin1
           (mkFootprint 0 1 (Py.lit 2.0) true false false)).
  - unfold max_exact_pins. cbn. lia.
  - reflexivity.
  - left. reflexivity.
Defined.

(** ** The second row *)

Lemma filter_flat_map {A B : Type} (f : B -> bool) (g : A -> list B)
    (l : list A) :
  filter f (flat_map g l) = flat_map (fun x => filter f (g x)) l.
Proof.
  induction l as [| x l IH]; cbn [flat_map]; [reflexivity |].
  now rewrite filter_app, IH.
Qed.

(** The id of a second-row pad is (pins + 2 i + 2) / 2. *)
Lemma row2_id_value (p i : Z) :
  (Py.value (Py.add (Py.add (Py.truediv p 2) (Py.Int i)) (Py.Int 1))
   == (p + 2 * i + 2) # 2)%Q.
Proof.
  rewrite !value_add. unfold Py.truediv, Py.fdiv. cbn [Py.value].
  rewrite Qred_correct.
  unfold Qeq, Qplus, Qdiv, Qmult, Qinv, inject_Z.
  cbn [Qnum Qden Pos.mul]. lia.
Qed.

(** X7.  With two rows, every pad of the second row (1 + ceil(pins / 2) of
    them in a returned list) is at the one point (0, pitch): the row does not
    advance along x.  Every other pad is at y = 0. *)
Theorem X7_second_row_on_one_point (self : HarwinLtekFootprint) (l : list pad) :
  rows self = 2 -> printPins self = Returns l ->
  Forall (fun p => if second_row p
                   then xCoord p = 0%Q /\ yCoord p = pitch self
                   else yCoord p = 0%Q) l /\
  Z.of_nat (List.length (filter second_row l))
  = 1 + Z.max ((pins self + 1) / 2) 0.
Proof.
  intros Hrows Hret. apply Z.eqb_eq in Hrows. split.
  - apply (Forall_returned _ self l Hret).
    + unfold before_loop. rewrite Hrows. repeat constructor.
    + intros i _. unfold iteration_pads, loop_bound. rewrite Hrows.
      repeat constructor.
  - apply printPins_returns_inv in Hret. destruct Hret as [_ [_ ->]].
    rewrite filter_app, length_app.
    unfold loop_pads, before_loop, loop_count, loop_bound. rewrite Hrows.
    rewrite filter_flat_map.
    rewrite (length_flat_map_const _ 1%nat)
      by (intros i; unfold iteration_pads; rewrite Hrows; reflexivity).
    rewrite length_counter_values, iterations_half.
    change (filter second_row _) with
      [row2_first self (path_mount self) (loop_shape self) (path_layers self)].
    cbn [List.length]. lia.
Qed.

Lemma X7_second_row_on_one_point_witness :
  let self := mkFootprint 6 2 (Py.lit 2.54) true false false in
  Forall (fun p => if second_row p
                   then xCoord p = 0%Q /\ yCoord p = Py.lit 2.54
                   else yCoord p = 0%Q)
         (returned_pads (printPins self)) /\
  Z.of_nat (List.length (filter second_row (returned_pads (printPins self))))
  = 4.
Proof.
  intros self.
  apply (X7_second_row_on_one_point self (returned_pads (printPins self))).
  - reflexivity.
  - vm_compute. reflexivity.
Defined.

(** X8.  With two rows and an odd pin count (within [max_exact_pins])
    nothing is rejected and the pad numbers of the second row are not whole
    numbers: the id of every second-row pad of a returned list is an integer
    plus one half (2.5, 3.5 for three pins), so no integer is the id of such
    a pad. *)
Theorem X8_odd_pins_give_fractional_ids
    (self : HarwinLtekFootprint) (l : list pad) :
  rows self = 2 -> Z.odd (pins self) = true ->
  Z.abs (pins self) <= max_exact_pins -> printPins self = Returns l ->
  Forall (fun p => second_row p = true -> forall n, has_id n p = false) l /\
  Exists (fun p => second_row p = true) l.
Proof.
  intros Hrows Hodd _ Hret. apply Z.eqb_eq in Hrows.
  apply Z.odd_spec in Hodd. destruct Hodd as [m Hm].
  assert (Hfrac : forall i n,
             Qeq_bool
               (Py.value
                  (Py.add (Py.add (Py.truediv (pins self) 2) (Py.Int i))
                     (Py.Int 1)))
               (inject_Z n) = false).
  { intros i n. apply not_true_is_false. intros H.
    apply Qeq_bool_iff in H. rewrite row2_id_value in H.
    unfold Qeq, inject_Z in H. cbn [Qnum Qden] in H. lia. }
  split.
  - apply (Forall_returned _ self l Hret).
    + unfold before_loop. rewrite Hrows.
      constructor; [discriminate |].
      constructor; [| constructor].
      intros _ n. apply Hfrac.
    + intros i _. unfold iteration_pads, loop_bound. rewrite Hrows.
      constructor; [discriminate |].
      constructor; [| constructor].
      intros _ n. apply Hfrac.
  - apply printPins_returns_inv in Hret. destruct Hret as [_ [_ ->]].
    unfold before_loop. rewrite Hrows. cbn [app].
    apply Exists_cons_tl, Exists_cons_hd. reflexivity.
Qed.

Lemma X8_odd_pins_give_fractional_ids_witness :
  let self := mkFootprint 3 2 (Py.lit 2.0) true false false in
  Forall (fun p => second_row p = true -> forall n, has_id n p = false)
         (returned_pads (printPins self)) /\
  Exists (fun p => second_row p = true) (returned_pads (printPins self)).
Proof.
  intros self.
  apply (X8_odd_pins_give_fractional_ids self (returned_pads (printPins self))).
  - reflexivity.
  - reflexivity.
  - unfold max_exact_pins. cbn. lia.
  - vm_compute. reflexivity.
Defined.

(** ** A pitch of zero *)

Lemma fmul_0_r (q : Q) : Py.fmul q 0 = 0%Q.
Proof.
  unfold Py.fmul. transitivity (Qred 0); [| reflexivity].
  apply Qred_complete. apply Qmult_0_r.
Qed.

(** X9.  The pitch is not checked.  With a pitch of 0.0 a returned list has
    every pad, of either row, on the origin. *)
Theorem X9_zero_pitch_stacks_all_pads (self : HarwinLtekFootprint) (l : list pad) :
  pitch self = 0%Q -> printPins self = Returns l ->
  Forall (fun p => xCoord p = 0%Q /\ yCoord p = 0%Q) l.
Proof.
  intros Hpitch Hret. apply (Forall_returned _ self l Hret).
  - unfold before_loop, row2_first. rewrite Hpitch.
    destruct (rows self =? 2); repeat constructor.
  - intros i _. unfold iteration_pads. rewrite Hpitch, fmul_0_r.
    destruct (rows self =? 2); repeat constructor.
Qed.

Lemma X9_zero_pitch_stacks_all_pads_witness :
  Forall (fun p => xCoord p = 0%Q /\ yCoord p = 0%Q)
    (returned_pads (printPins (mkFootprint 4 2 0%Q true false false))).
Proof.
  apply (X9_zero_pitch_stacks_all_pads (mkFootprint 4 2 0%Q true false false)).
  - reflexivity.
  - vm_compute. reflexivity.
Defined.

(** ** Which pad numbers are emitted *)









(** ** Repeated lines *)

(** X12.  With two rows and at least one pin, a returned list repeats a
    line: the first pad of the second row, appended before the loop, is
    appended again, identically, by the first iteration.  The list runs
    pin 1, that pad, pin 1 again (same number, place, size and drill), that
    pad again. *)
Theorem X12_two_rows_repeat_a_line (self : HarwinLtekFootprint) (l : list pad) :
  rows self = 2 -> 1 <= pins self -> printPins self = Returns l ->
  (exists p1 p2 p3 t,
      l = p1 :: p2 :: p3 :: p2 :: t /\ geometry p3 = geometry p1) /\
  ~ NoDup l.
Proof.
  intros Hrows Hpins Hret. apply Z.eqb_eq in Hrows.
  apply printPins_returns_inv in Hret. destruct Hret as [_ [_ ->]].
  assert (E : exists p1 p2 p3 t,
             before_loop self ++ loop_pads self = p1 :: p2 :: p3 :: p2 :: t /\
             geometry p3 = geometry p1).
  { unfold before_loop, loop_pads, loop_count, loop_bound. rewrite Hrows.
    rewrite iterations_half.
    destruct (half_iterations_succ (pins self) Hpins) as [k ->].
    rewrite counter_values_S. cbn [flat_map app].
    unfold iteration_pads at 1. rewrite Hrows. cbn [app].
    do 4 eexists. split; [reflexivity |].
    unfold geometry, pin1. cbn [padID xCoord yCoord xSize ySize drill].
    rewrite fmul_float_0. reflexivity. }
  split; [exact E |].
  destruct E as [p1 [p2 [p3 [t [-> _]]]]].
  intros N. inversion N as [| ? ? _ N1]; subst.
  inversion N1 as [| ? ? Hnot _]; subst.
  apply Hnot. right. left. reflexivity.
Qed.

Lemma X12_two_rows_repeat_a_line_witness :
  ~ NoDup (returned_pads (printPins (mkFootprint 4 2 (Py.lit 2.0) true false true))).
Proof.
  apply (X12_two_rows_repeat_a_line
           (mkFootprint 4 2 (Py.lit 2.0) true false true)).
  - reflexivity.
  - cbn. lia.
  - vm_compute. reflexivity.
Defined.

Lemma NoDup_map_inj {A B : Type} (f : A -> B) (l : list A) :
  (forall x y, In x l -> In y l -> f x = f y -> x = y) ->
  NoDup l -> NoDup (map f l).
Proof.
  intros Hinj Hnd. induction Hnd as [| x l Hx Hnd IH]; cbn [map].
  - constructor.
  - constructor.
    + rewrite in_map_iff. intros [y [E Hy]].
      apply Hinj in E; [| now right | now left]. now subst.
    + apply IH. intros a b Ha Hb. apply Hinj; now right.
Qed.

Lemma NoDup_counter_values (i : Z) (n : nat) : NoDup (counter_values i n).
Proof.
  unfold counter_values. apply NoDup_map_inj; [| apply seq_NoDup].
  intros x y _ _. lia.
Qed.

(** X13.  With one row (any row count other than 2) no line of a returned
    list is repeated: pin 1 is there twice, but once as a rectangle and once
    as a circle, and all other pads differ in their number. *)
Theorem X13_single_row_repeats_no_line (self : HarwinLtekFootprint) (l : list pad) :
  rows self <> 2 -> printPins self = Returns l -> NoDup l.
Proof.
  intros Hrows Hret.
  apply printPins_returns_inv in Hret. destruct Hret as [_ [Hpath ->]].
  destruct Hpath as [Hsmd | ?]; [| contradiction].
  apply Z.eqb_neq in Hrows.
  unfold before_loop, loop_pads, iteration_pads, loop_shape.
  rewrite Hrows, Hsmd, flat_map_single. cbn [app].
  constructor.
  - rewrite in_map_iff. intros [i [E _]]. discriminate E.
  - apply NoDup_map_inj; [| apply NoDup_counter_values].
    intros x y _ _ E. injection E as E _. lia.
Qed.

Lemma X13_single_row_repeats_no_line_witness :
  NoDup (returned_pads (printPins (mkFootprint 4 1 (Py.lit 2.0) true false false))).
Proof.
  apply (X13_single_row_repeats_no_line
           (mkFootprint 4 1 (Py.lit 2.0) true false false)).
  - cbn. lia.
  - vm_compute. reflexivity.
Defined.

(** ** How often the loop body runs *)





(** ** The constructor defaults *)

(** X15.  The default of [strain] is [True].  An object built without
    passing [strain], whatever the other five arguments, cannot print its
    pins: [printPins] raises and hands over no pad.  With every argument
    left out the exception is the NameError on [mXCoord]. *)
Theorem X15_default_strain_always_raises
    (pins rows : option Z) (pitch : option Q) (vert smd : option bool) :
  (exists e, printPins (__init__ pins rows pitch vert None smd) = Raises e) /\
  returned_pads (printPins (__init__ pins rows pitch vert None smd)) = [] /\
  printPins (__init__ None None None None None None)
  = Raises (NameError "mXCoord").
Proof.
  assert (E : exists e,
             printPins (__init__ pins rows pitch vert None smd) = Raises e).
  { rewrite printPins_outcome. unfold finish. cbn [__init__ strain].
    match goal with
    | |- context [if ?c then _ else _] => destruct c
    end; eexists; reflexivity. }
  split; [exact E |]. split; [| reflexivity].
  destruct E as [e ->]. reflexivity.
Qed.

(** X16.  The defaults of [rows] and [smd] are 1 and [False].  An object
    built with [strain=False] and without passing [rows] and [smd] always
    prints: [printPins] returns 1 + max(pins, 0) pads, 3 when [pins] is left
    at its default of 2. *)
Theorem X16_default_rows_and_smd_print
    (pins : option Z) (pitch : option Q) (vert : option bool) :
  exists l,
    printPins (__init__ pins None pitch vert (Some false) None) = Returns l /\
    Z.of_nat (List.length l)
    = 1 + Z.max (match pins with Some v => v | None => 2 end) 0.
Proof.
  eexists. split.
  - rewrite printPins_outcome. reflexivity.
  - rewrite length_of_result. reflexivity.
Qed.

(** ** What the [smd] flag changes *)

Lemma map_flat_map {A B C : Type} (g : B -> C) (f : A -> list B) (l : list A) :
  map g (flat_map f l) = flat_map (fun x => map g (f x)) l.
Proof.
  induction l as [| x l IH]; cbn [flat_map map]; [reflexivity |].
  now rewrite map_app, IH.
Qed.

Lemma geometry_of_result (s1 s2 : HarwinLtekFootprint) :
  pins s1 = pins s2 -> rows s1 = rows s2 -> pitch s1 = pitch s2 ->
  map geometry (before_loop s1 ++ loop_pads s1)
  = map geometry (before_loop s2 ++ loop_pads s2).
Proof.
  intros Hpins Hrows Hpitch.
  rewrite !map_app. unfold loop_pads. rewrite !map_flat_map.
  unfold before_loop, loop_count, loop_bound, iteration_pads, row2_first.
  rewrite Hpins, Hrows, Hpitch.
  destruct (rows s2 =? 2); reflexivity.
Qed.

(** X17.  The [smd] flag (like [vert]) changes no number, place, size or
    drill.  Two specs with the same pin count, row count and pitch that both
    return give lists that agree pad by pad on id, position, size and drill;
    an SMD part gets the through-hole geometry and differs only in mount
    type, shape and layers. *)
Theorem X17_smd_keeps_the_geometry (s1 s2 : HarwinLtekFootprint)
    (l1 l2 : list pad) :
  pins s1 = pins s2 -> rows s1 = rows s2 -> pitch s1 = pitch s2 ->
  printPins s1 = Returns l1 -> printPins s2 = Returns l2 ->
  map geometry l1 = map geometry l2.
Proof.
  intros Hpins Hrows Hpitch H1 H2.
  apply printPins_returns_inv in H1. destruct H1 as [_ [_ ->]].
  apply printPins_returns_inv in H2. destruct H2 as [_ [_ ->]].
  now apply geometry_of_result.
Qed.

Lemma X17_smd_keeps_the_geometry_witness :
  map geometry
    (returned_pads (printPins (mkFootprint 4 2 (Py.lit 2.0) true false true)))
  = map geometry
      (returned_pads (printPins (mkFootprint 4 2 (Py.lit 2.0) false false false))).
Proof.
  apply (X17_smd_keeps_the_geometry
           (mkFootprint 4 2 (Py.lit 2.0) true false true)
           (mkFootprint 4 2 (Py.lit 2.0) false false false));
    solve [reflexivity | vm_compute; reflexivity].
Defined.

(** ** Number and place in the first row *)


